(** * code_puppy: the "add custom model" menu

    A shallow embedding of [code_puppy/command_line/add_model_menu.py]:
    the [AddModelMenu] class ([run], [_prompt_custom_flow], [_save_config])
    and [interactive_model_picker], together with the pieces of the Python
    runtime the module calls ([int], [json.dump], [dict] item assignment,
    [os.environ]).

    Conventions.
    - A Python [str] is a [string]; each character stands for the code point
      of the same number (0..255).  The two messages that start with an
      emoji are kept byte for byte; no statement looks inside them.
    - The interpreter state the module reads and writes (the menu object, the
      terminal, standard input, the process environment, the configuration
      stores and the file system) is one record, [World]; every call the
      module makes to a collaborator is appended to its [log].
    - Statements run in the monad [Py]: a state transformer over [World] whose
      result is a value or a raised exception. *)

From Stdlib Require Import ZArith List Ascii String Bool Lia.
From stdpp Require Import base option decidable list strings pretty gmap.

#[local] Set Warnings "-register-all".

Open Scope Z_scope.
Open Scope string_scope.

(* ===================================================================== *)
(** ** Python values used by the module *)
(* ===================================================================== *)

(** What [json.load] can return and [json.dump] can write.  A [dict] keeps
    its keys in insertion order, so it is an association list; a float is
    kept as its [repr]. *)
Inductive json : Type :=
| JNull
| JBool (b : bool)
| JInt (n : Z)
| JFloat (repr : string)
| JStr (s : string)
| JList (xs : list json)
| JDict (items : list (string * json)).

(** Python truthiness of a [str]: [not s] holds exactly for the empty
    string. *)
Definition truthy (s : string) : bool :=
  match s with
  | EmptyString => false
  | String _ _ => true
  end.

(** [d[k]] for a dict ([None] when the key is absent). *)
Fixpoint dict_get (k : string) (d : list (string * json)) : option json :=
  match d with
  | [] => None
  | (k', v') :: d' => if String.eqb k' k then Some v' else dict_get k d'
  end.

(** [d[k] = v]: an existing key keeps its position, a new key goes last. *)
Fixpoint dict_setitem (k : string) (v : json) (d : list (string * json))
  : list (string * json) :=
  match d with
  | [] => [(k, v)]
  | (k', v') :: d' =>
      if String.eqb k' k then (k, v) :: d' else (k', v') :: dict_setitem k v d'
  end.

Definition dict_keys (d : list (string * json)) : list string := map fst d.

(* --------------------------------------------------------------------- *)
(** *** [int(s)] *)

Definition chr (n : nat) : ascii := ascii_of_nat n.
Definition ord (c : ascii) : nat := nat_of_ascii c.

(** White space as [int] skips it around the literal: the ASCII blanks
    (tab, line feed, vertical tab, form feed, carriage return, space) and
    the two blanks above 127 (next line, no-break space). *)
Definition int_space (c : ascii) : bool :=
  let n := ord c in
  ((9 <=? n) && (n <=? 13) || (n =? 32) || (n =? 133) || (n =? 160))%nat.

Definition digit_value (c : ascii) : option Z :=
  let n := ord c in
  if ((48 <=? n) && (n <=? 57))%nat then Some (Z.of_nat (n - 48)) else None.

Fixpoint skip_space (s : string) : string :=
  match s with
  | String c s' => if int_space c then skip_space s' else s
  | EmptyString => s
  end.

Definition all_space (s : string) : bool :=
  match skip_space s with EmptyString => true | _ => false end.

(** The digits after the first one: a digit, or one underscore followed by
    a digit; the literal ends at the first other character, and only white
    space may follow it. *)
Fixpoint int_digits (acc : Z) (s : string) : option Z :=
  match s with
  | EmptyString => Some acc
  | String c s' =>
      match digit_value c with
      | Some d => int_digits (10 * acc + d) s'
      | None =>
          if Ascii.eqb c "_" then
            match s' with
            | String c' s'' =>
                match digit_value c' with
                | Some d => int_digits (10 * acc + d) s''
                | None => None
                end
            | EmptyString => None
            end
          else if all_space s then Some acc else None
      end
  end.

Definition int_magnitude (s : string) : option Z :=
  match s with
  | String c s' =>
      match digit_value c with
      | Some d => int_digits d s'
      | None => None
      end
  | EmptyString => None
  end.

(** [int(s)] in base ten; [None] stands for [ValueError]. *)
Definition py_int (s : string) : option Z :=
  match skip_space s with
  | String "+" s' => int_magnitude s'
  | String "-" s' => Z.opp <$> int_magnitude s'
  | s' => int_magnitude s'
  end.

(* --------------------------------------------------------------------- *)
(** *** [json.dumps(obj, indent=n)] *)

Definition hex_digit (n : nat) : ascii :=
  if (n <? 10)%nat then chr (48 + n) else chr (87 + n).

(** One character of a string literal, as [ensure_ascii=True] writes it. *)
Definition escape_char (c : ascii) : string :=
  let n := ord c in
  if (n =? 34)%nat then String "\" (String c EmptyString)
  else if (n =? 92)%nat then "\\"
  else if (n =? 10)%nat then "\n"
  else if (n =? 13)%nat then "\r"
  else if (n =? 9)%nat then "\t"
  else if (n =? 12)%nat then "\f"
  else if (n =? 8)%nat then "\b"
  else if ((32 <=? n) && (n <=? 126))%nat then String c EmptyString
  else "\u00" +:+ String (hex_digit (n / 16)) (String (hex_digit (n mod 16)) EmptyString).

Fixpoint escape (s : string) : string :=
  match s with
  | EmptyString => EmptyString
  | String c s' => escape_char c +:+ escape s'
  end.

Definition DQUOTE : string := String (chr 34) EmptyString.

Definition py_encode_basestring_ascii (s : string) : string :=
  DQUOTE +:+ escape s +:+ DQUOTE.

Fixpoint spaces (n : nat) : string :=
  match n with
  | O => EmptyString
  | S n' => String " " (spaces n')
  end.

Definition LF : string := String (chr 10) EmptyString.

(** ['\n' + ' ' * indent * level] *)
Definition newline_indent (indent level : nat) : string :=
  LF +:+ spaces (indent * level).

Definition int_repr (n : Z) : string := pretty n.

(** The encoder of [json.dumps] with an integer [indent]: the item
    separator is [","] followed by the newline and indentation of the
    current level, the key separator is [": "], and an empty container is
    written without a line break. *)
Fixpoint iterencode (indent level : nat) (o : json) {struct o} : string :=
  match o with
  | JNull => "null"
  | JBool true => "true"
  | JBool false => "false"
  | JInt n => int_repr n
  | JFloat r => r
  | JStr s => py_encode_basestring_ascii s
  | JList [] => "[]"
  | JList (x :: xs) =>
      "[" +:+ newline_indent indent (S level) +:+ iterencode indent (S level) x
      +:+ (fix rest (l : list json) : string :=
             match l with
             | [] => EmptyString
             | y :: l' =>
                 "," +:+ newline_indent indent (S level)
                 +:+ iterencode indent (S level) y +:+ rest l'
             end) xs
      +:+ newline_indent indent level +:+ "]"
  | JDict [] => "{}"
  | JDict ((k, x) :: kvs) =>
      "{" +:+ newline_indent indent (S level)
      +:+ py_encode_basestring_ascii k +:+ ": " +:+ iterencode indent (S level) x
      +:+ (fix rest (l : list (string * json)) : string :=
             match l with
             | [] => EmptyString
             | (k', y) :: l' =>
                 "," +:+ newline_indent indent (S level)
                 +:+ py_encode_basestring_ascii k' +:+ ": "
                 +:+ iterencode indent (S level) y +:+ rest l'
             end) kvs
      +:+ newline_indent indent level +:+ "}"
  end.

Definition json_dumps (indent : nat) (o : json) : string := iterencode indent 0 o.

(* ===================================================================== *)
(** ** The interpreter state *)
(* ===================================================================== *)

(** The exceptions that occur in the module.  [KeyboardInterrupt] is the
    only one that is not an [Exception]. *)
Inductive exn : Type :=
| KeyboardInterrupt
| EOFError
| ValueError
| TypeError
| IndexError
| OSError
| RuntimeError.

Definition is_Exception (e : exn) : bool :=
  match e with
  | KeyboardInterrupt => false
  | _ => true
  end.

(** [ProviderInfo] of [code_puppy.models_dev_parser], with the fields the
    constructor call in [__init__] gives. *)
Record ProviderInfo : Type := {
  provider_id : string;
  provider_name : string;
  provider_env : list string;
  provider_api : string;
}.

(** Formatted text: (style, text) fragments. *)
Definition fragments : Type := list (string * string).

(** The attributes of an [AddModelMenu] object.  [result] is [None] or a
    string; the two controls are created by [run]. *)
Record AddModelMenu : Type := {
  providers : list ProviderInfo;
  current_provider : option ProviderInfo;
  current_models : list unit;
  view_mode : string;
  selected_provider_idx : Z;
  selected_model_idx : Z;
  result : option string;
  menu_control : fragments;
  preview_control : fragments;
}.

(** One answer of [safe_input]: the line read, or the exception it lets
    through. *)
Inductive reply : Type :=
| Line (s : string)
| Interrupt
| EndOfInput.

(** What the event loop of [Application.run] meets: a key press, or a
    failure of the toolkit. *)
Inductive ui_event : Type :=
| KeyEnter
| KeyCtrlC
| KeyOther
| Fault (e : exn).

(** The file at [EXTRA_MODELS_FILE] as [_save_config] sees it. *)
Inductive file_state : Type :=
| Missing                (* the path does not exist *)
| Unreadable             (* it exists, [open] raises *)
| Corrupt                (* it opens, [json.load] raises *)
| Holds (v : json).      (* [json.load] returns [v] *)

(** The calls to collaborators, in the order they happen; a call of
    [safe_input] is logged with what it yielded. *)
Inductive event : Type :=
| SetAwaitingUserInput (b : bool)
| StdoutWrite (s : string)
| StdoutFlush
| AppRun
| EmitInfo (s : string)
| EmitWarning (s : string)
| SafeInput (prompt : string) (answer : reply)
| SetConfigValue (k v : string)
| Putenv (k v : string)
| Mkdir
| OpenForWriting
| JsonDump (text : string).

Record World : Type := {
  menu : AddModelMenu;              (* the object [self] *)
  keys : list ui_event;             (* what [app.run] will receive *)
  stdin : list reply;               (* what [safe_input] will answer *)
  environ : gmap string string;     (* [os.environ] *)
  puppy_cfg : gmap string string;   (* the store behind [set_config_value] *)
  extra_models_file : file_state;   (* the file at [EXTRA_MODELS_FILE] *)
  mkdir_ok : bool;                  (* can the parent directory be made *)
  open_w_ok : bool;                 (* can the file be opened for writing *)
  log : list event;
}.

Definition set_menu (m : AddModelMenu) (w : World) : World :=
  {| menu := m; keys := keys w; stdin := stdin w; environ := environ w;
     puppy_cfg := puppy_cfg w; extra_models_file := extra_models_file w;
     mkdir_ok := mkdir_ok w; open_w_ok := open_w_ok w; log := log w |}.

Definition set_keys (ks : list ui_event) (w : World) : World :=
  {| menu := menu w; keys := ks; stdin := stdin w; environ := environ w;
     puppy_cfg := puppy_cfg w; extra_models_file := extra_models_file w;
     mkdir_ok := mkdir_ok w; open_w_ok := open_w_ok w; log := log w |}.

Definition set_stdin (rs : list reply) (w : World) : World :=
  {| menu := menu w; keys := keys w; stdin := rs; environ := environ w;
     puppy_cfg := puppy_cfg w; extra_models_file := extra_models_file w;
     mkdir_ok := mkdir_ok w; open_w_ok := open_w_ok w; log := log w |}.

Definition set_environ (e : gmap string string) (w : World) : World :=
  {| menu := menu w; keys := keys w; stdin := stdin w; environ := e;
     puppy_cfg := puppy_cfg w; extra_models_file := extra_models_file w;
     mkdir_ok := mkdir_ok w; open_w_ok := open_w_ok w; log := log w |}.

Definition set_puppy_cfg (c : gmap string string) (w : World) : World :=
  {| menu := menu w; keys := keys w; stdin := stdin w; environ := environ w;
     puppy_cfg := c; extra_models_file := extra_models_file w;
     mkdir_ok := mkdir_ok w; open_w_ok := open_w_ok w; log := log w |}.

Definition set_extra_models_file (f : file_state) (w : World) : World :=
  {| menu := menu w; keys := keys w; stdin := stdin w; environ := environ w;
     puppy_cfg := puppy_cfg w; extra_models_file := f;
     mkdir_ok := mkdir_ok w; open_w_ok := open_w_ok w; log := log w |}.

Definition set_log (l : list event) (w : World) : World :=
  {| menu := menu w; keys := keys w; stdin := stdin w; environ := environ w;
     puppy_cfg := puppy_cfg w; extra_models_file := extra_models_file w;
     mkdir_ok := mkdir_ok w; open_w_ok := open_w_ok w; log := l |}.

(* ===================================================================== *)
(** ** The monad of statements *)
(* ===================================================================== *)

Inductive outcome (A : Type) : Type :=
| Returns (a : A)
| Raises (e : exn).
Arguments Returns {A} a.
Arguments Raises {A} e.

Definition Py (A : Type) : Type := World -> outcome A * World.

Definition Py_ret {A} (a : A) : Py A := fun w => (Returns a, w).

Definition Py_bind {A B} (k : A -> Py B) (c : Py A) : Py B :=
  fun w =>
    match c w with
    | (Returns a, w') => k a w'
    | (Raises e, w') => (Raises e, w')
    end.

#[export] Instance Py_mret : MRet Py := @Py_ret.
#[export] Instance Py_mbind : MBind Py := @Py_bind.

Definition raise {A} (e : exn) : Py A := fun w => (Raises e, w).

(** [try: body / except <handles>: handler]: an exception of the body that
    the clause names is handled, any other goes on. *)
Definition try_except {A} (body : Py A) (handles : exn -> bool)
    (handler : Py A) : Py A :=
  fun w =>
    match body w with
    | (Returns a, w') => (Returns a, w')
    | (Raises e, w') => if handles e then handler w' else (Raises e, w')
    end.

(** [try: body / finally: cleanup]: the cleanup runs however the body ends;
    then the body's result or exception stands, unless the cleanup itself
    raises. *)
Definition try_finally {A} (body : Py A) (cleanup : Py unit) : Py A :=
  fun w =>
    match body w with
    | (r, w') =>
        match cleanup w' with
        | (Returns _, w'') => (r, w'')
        | (Raises e, w'') => (Raises e, w'')
        end
    end.

Definition get_world : Py World := fun w => (Returns w, w).
Definition modify (f : World -> World) : Py unit := fun w => (Returns tt, f w).

(** A call to a collaborator that has no result the module uses. *)
Definition call (e : event) : Py unit :=
  modify (fun w => set_log (log w ++ [e])%list w).

(* ===================================================================== *)
(** ** The collaborators *)
(* ===================================================================== *)

(** Modelled from the spec: [safe_input] of [code_puppy.command_line.utils]
    is not among the sources.  It is the blocking line read of section 4.2:
    it shows the prompt and yields the line typed, or is ended by the
    user's cancel signal ([KeyboardInterrupt]) or by the end of the input
    ([EOFError]); an exhausted input is at its end. *)
Definition safe_input (prompt : string) : Py string :=
  fun w =>
    match stdin w with
    | Line s :: rs =>
        (Returns s, set_stdin rs (set_log (log w ++ [SafeInput prompt (Line s)])%list w))
    | Interrupt :: rs =>
        (Raises KeyboardInterrupt,
         set_stdin rs (set_log (log w ++ [SafeInput prompt Interrupt])%list w))
    | EndOfInput :: rs =>
        (Raises EOFError,
         set_stdin rs (set_log (log w ++ [SafeInput prompt EndOfInput])%list w))
    | [] =>
        (Raises EOFError, set_log (log w ++ [SafeInput prompt EndOfInput])%list w)
    end.

(** Modelled from the spec: [set_config_value] of [code_puppy.config] is not
    among the sources; it persists the pair to the general key-value
    configuration store. *)
Definition set_config_value (k v : string) : Py unit :=
  call (SetConfigValue k v);;
  modify (fun w => set_puppy_cfg (<[k:=v]> (puppy_cfg w)) w).

(** Modelled from the spec: [emit_info], [emit_warning] of
    [code_puppy.messaging] and [set_awaiting_user_input] of
    [code_puppy.tools.command_runner] are not among the sources; each is a
    notification with no result. *)
Definition emit_info (msg : string) : Py unit := call (EmitInfo msg).
Definition emit_warning (msg : string) : Py unit := call (EmitWarning msg).
Definition set_awaiting_user_input (b : bool) : Py unit :=
  call (SetAwaitingUserInput b).

(** [sys.stdout.write], [sys.stdout.flush] *)
Definition stdout_write (s : string) : Py unit := call (StdoutWrite s).
Definition stdout_flush : Py unit := call StdoutFlush.

(** [os.environ.get(name)] and [os.environ[name] = value] *)
Definition environ_get (name : string) : Py (option string) :=
  fun w => (Returns (environ w !! name), w).

Definition environ_setitem (name value : string) : Py unit :=
  call (Putenv name value);;
  modify (fun w => set_environ (<[name:=value]> (environ w)) w).

(** [not os.environ.get(name)]: true when the variable is absent and when
    it is the empty string. *)
Definition not_ (v : option string) : bool :=
  match v with
  | None => true
  | Some s => negb (truthy s)
  end.

(** [int(s)], raising [ValueError] *)
Definition int_ (s : string) : Py Z :=
  match py_int s with
  | Some n => mret n
  | None => raise ValueError
  end.

(** The file system at [EXTRA_MODELS_FILE]. *)
Definition path_exists : Py bool :=
  fun w =>
    (Returns match extra_models_file w with Missing => false | _ => true end, w).

(** [with open(path, "r") as f: json.load(f)] *)
Definition open_and_load : Py json :=
  fun w =>
    match extra_models_file w with
    | Holds v => (Returns v, w)
    | Corrupt => (Raises ValueError, w)
    | Unreadable | Missing => (Raises OSError, w)
    end.

(** An operation on the file system that the state allows or that raises
    [OSError]. *)
Definition os_guard (allowed : World -> bool) : Py unit :=
  fun w => if allowed w then (Returns tt, w) else (Raises OSError, w).

(** [path.parent.mkdir(parents=True, exist_ok=True)] *)
Definition mkdir_parent : Py unit :=
  call Mkdir;;
  os_guard mkdir_ok.

(** [with open(path, "w") as f: json.dump(obj, f, indent=4)] *)
Definition open_and_dump (obj : json) : Py unit :=
  call OpenForWriting;;
  os_guard open_w_ok;;
  call (JsonDump (json_dumps 4 obj));;
  modify (set_extra_models_file (Holds obj)).

(** [obj[key] = value]: only a dict takes a string key. *)
Definition setitem (obj : json) (key : string) (value : json) : Py json :=
  match obj with
  | JDict items => mret (JDict (dict_setitem key value items))
  | _ => raise TypeError
  end.

(** The event loop of [app.run] with the two key bindings of [run]:
    [enter] stores the result and exits, [c-c] exits, any other key has no
    binding; the loop ends with [EOFError] when the input is closed. *)
Definition self : Py AddModelMenu := fun w => (Returns (menu w), w).

Definition set_result (r : option string) (m : AddModelMenu) : AddModelMenu :=
  {| providers := providers m; current_provider := current_provider m;
     current_models := current_models m; view_mode := view_mode m;
     selected_provider_idx := selected_provider_idx m;
     selected_model_idx := selected_model_idx m; result := r;
     menu_control := menu_control m; preview_control := preview_control m |}.

Definition set_controls (l r : fragments) (m : AddModelMenu) : AddModelMenu :=
  {| providers := providers m; current_provider := current_provider m;
     current_models := current_models m; view_mode := view_mode m;
     selected_provider_idx := selected_provider_idx m;
     selected_model_idx := selected_model_idx m; result := result m;
     menu_control := l; preview_control := r |}.

Definition on_enter : Py unit :=
  modify (fun w => set_menu (set_result (Some "add_custom") (menu w)) w).

Definition on_ctrl_c : Py unit := mret tt.

Fixpoint event_loop (ks : list ui_event) : Py unit :=
  match ks with
  | KeyEnter :: ks' => modify (set_keys ks');; on_enter
  | KeyCtrlC :: ks' => modify (set_keys ks');; on_ctrl_c
  | KeyOther :: ks' => event_loop ks'
  | Fault e :: ks' => modify (set_keys ks');; raise e
  | [] => modify (set_keys []);; raise EOFError
  end.

Definition app_run : Py unit :=
  call AppRun;;
  w ← get_world;
  event_loop (keys w).

(* ===================================================================== *)
(** ** [AddModelMenu] *)
(* ===================================================================== *)

Definition ESC : string := String (chr 27) EmptyString.

Definition custom_openai_provider : ProviderInfo :=
  {| provider_id := "custom-openai";
     provider_name := "Custom OpenAI Compatible";
     provider_env := ["CUSTOM_OPENAI_API_KEY"];
     provider_api := "N/A" |}.

(** [AddModelMenu.__init__] *)
Definition __init__ : AddModelMenu :=
  {| providers := [custom_openai_provider];
     current_provider := Some custom_openai_provider;
     current_models := [];
     view_mode := "providers";
     selected_provider_idx := 0;
     selected_model_idx := 0;
     result := None;
     menu_control := [];
     preview_control := [] |}.

Definition _render_navigation_hints (lines : fragments) : fragments :=
  (lines ++ [("", LF); ("fg:green", "  Enter  "); ("", "Select/Add" +:+ LF);
             ("fg:ansibrightred", "  Ctrl+C "); ("", "Cancel")])%list.

Definition _render_provider_list : Py fragments :=
  m ← self;
  match providers m with
  | provider :: _ =>
      let prefix := " > " in
      let label := prefix +:+ provider_name provider in
      mret (_render_navigation_hints
              [("", " Providers" +:+ LF +:+ LF); ("fg:ansicyan bold", label);
               ("", LF); ("", LF)])
  | [] => raise IndexError
  end.

Definition _render_model_details : fragments :=
  [("dim cyan", " DETAILS" +:+ LF +:+ LF);
   ("bold", "  Custom OpenAI Compatible Endpoint" +:+ LF +:+ LF);
   ("fg:ansibrightblack", "  Add any model that supports the OpenAI API format." +:+ LF);
   ("fg:ansibrightblack", "  You will need:" +:+ LF);
   ("fg:ansibrightblack", "  1. API Endpoint URL" +:+ LF);
   ("fg:ansibrightblack", "  2. API Key" +:+ LF);
   ("fg:ansibrightblack", "  3. Model ID (e.g. gpt-4, llama-3)" +:+ LF)].

Definition update_display : Py unit :=
  l ← _render_provider_list;
  modify (fun w => set_menu (set_controls l _render_model_details (menu w)) w).

(** [AddModelMenu._save_config] *)
Definition _save_config (key : string) (config : json) : Py unit :=
  ex ← path_exists;
  extra_models ←
    (if ex : bool
     then try_except open_and_load is_Exception (mret (JDict []))
     else mret (JDict []));
  extra_models ← setitem extra_models key config;
  mkdir_parent;;
  open_and_dump extra_models;;
  emit_info ("✅ Added " +:+ key +:+ " to configuration.").

Definition is_cancel (e : exn) : bool :=
  match e with
  | KeyboardInterrupt | EOFError => true
  | _ => false
  end.

Definition is_ValueError (e : exn) : bool :=
  match e with
  | ValueError => true
  | _ => false
  end.

(** The dict literal built at the end of [_prompt_custom_flow]. *)
Definition model_config (base_url model_id env_var_name : string)
    (context_length : Z) : json :=
  JDict [("type", JStr "custom_openai");
         ("name", JStr model_id);
         ("custom_endpoint",
           JDict [("url", JStr base_url);
                  ("api_key", JStr ("$" +:+ env_var_name))]);
         ("context_length", JInt context_length);
         ("supported_settings", JList [JStr "temperature"; JStr "top_p"])].

(** [AddModelMenu._prompt_custom_flow] *)
Definition _prompt_custom_flow : Py bool :=
  try_except
    (emit_info (LF +:+ "✨ Add Custom OpenAI-Compatible Model" +:+ LF);;
     (* 1. Base URL *)
     base_url ← safe_input "  API Base URL (e.g., https://api.openai.com/v1): ";
     if negb (truthy base_url) then mret false else
     (* 2. Model ID *)
     model_id ← safe_input "  Model ID (e.g., gpt-4o): ";
     if negb (truthy model_id) then mret false else
     (* 3. API Key (Environment Variable Name) *)
     env_var_name ←
       safe_input "  Environment Variable for API Key (e.g., OPENAI_API_KEY): ";
     if negb (truthy env_var_name) then mret false else
     (* 4. Context Length *)
     ctx_input ← safe_input "  Context Length [128000]: ";
     context_length ←
       (if truthy ctx_input
        then try_except (int_ ctx_input) is_ValueError (mret 128000)
        else mret 128000);
     (* Check if env var is set *)
     v ← environ_get env_var_name;
     (if not_ v
      then
        key_val ← safe_input ("  Enter value for " +:+ env_var_name
                               +:+ " (will be saved): ");
        if truthy key_val
        then set_config_value env_var_name key_val;;
             environ_setitem env_var_name key_val
        else mret tt
      else mret tt);;
     (* Save config *)
     _save_config ("custom-" +:+ model_id)
       (model_config base_url model_id env_var_name context_length);;
     mret true)
    is_cancel
    (emit_warning (LF +:+ "Cancelled.");; mret false).

Definition result_is (m : AddModelMenu) (s : string) : bool :=
  match result m with
  | Some r => String.eqb r s
  | None => false
  end.

(** [AddModelMenu.run] *)
Definition run : Py bool :=
  (* Build UI *)
  modify (fun w => set_menu (set_controls [] [] (menu w)) w);;
  set_awaiting_user_input true;;
  stdout_write (ESC +:+ "[?1049h");;
  stdout_write (ESC +:+ "[2J" +:+ ESC +:+ "[H");;
  stdout_flush;;
  try_finally
    (update_display;; app_run)
    (stdout_write (ESC +:+ "[?1049l");;
     stdout_flush;;
     set_awaiting_user_input false);;
  m ← self;
  if result_is m "add_custom" then _prompt_custom_flow else mret false.

(** [interactive_model_picker] *)
Definition interactive_model_picker : Py bool :=
  modify (set_menu __init__);;
  run.

(* ===================================================================== *)
(** ** The vocabulary of the statements *)
(* ===================================================================== *)

(** The mapping [_save_config] starts from: what the file holds when it
    loads, the empty dict when it is missing or does not load. *)
Definition loaded (f : file_state) : json :=
  match f with
  | Holds v => v
  | Missing | Unreadable | Corrupt => JDict []
  end.

(** Events of the persistence step. *)
Definition touches_file (e : event) : bool :=
  match e with
  | Mkdir | OpenForWriting | JsonDump _ => true
  | _ => false
  end.

Definition is_dump (e : event) : bool :=
  match e with
  | JsonDump _ => true
  | _ => false
  end.

(** Events on the terminal and the awaiting-input signal. *)
Definition is_terminal (e : event) : bool :=
  match e with
  | SetAwaitingUserInput _ | StdoutWrite _ | StdoutFlush => true
  | _ => false
  end.

(** A prompt that was ended by the cancel signal or the end of input. *)
Definition is_cancelled_prompt (e : event) : bool :=
  match e with
  | SafeInput _ Interrupt | SafeInput _ EndOfInput => true
  | _ => false
  end.

(** The secret being stored. *)
Definition stores_secret (e : event) : bool :=
  match e with
  | SetConfigValue _ _ | Putenv _ _ => true
  | _ => false
  end.

Definition is_prompt (e : event) : bool :=
  match e with
  | SafeInput _ _ => true
  | _ => false
  end.

(** How many events of a kind a trace has. *)
Definition count (p : event -> bool) (evs : list event) : nat :=
  length (List.filter p evs).

(** The display ends with the key that has a binding, after any number of
    keys that have none. *)
Definition display_ends_with (k : ui_event) (ks rest : list ui_event) : Prop :=
  exists n, ks = (replicate n KeyOther ++ k :: rest)%list.

(** The escape sequences of [run]. *)
Definition ENTER_ALT_SCREEN : string := ESC +:+ "[?1049h".
Definition CLEAR_SCREEN : string := ESC +:+ "[2J" +:+ ESC +:+ "[H".
Definition LEAVE_ALT_SCREEN : string := ESC +:+ "[?1049l".

Definition display_acquire : list event :=
  [SetAwaitingUserInput true; StdoutWrite ENTER_ALT_SCREEN;
   StdoutWrite CLEAR_SCREEN; StdoutFlush].

Definition display_release : list event :=
  [StdoutWrite LEAVE_ALT_SCREEN; StdoutFlush; SetAwaitingUserInput false].



(** The text of the five prompts. *)
Definition PROMPT_URL : string :=
  "  API Base URL (e.g., https://api.openai.com/v1): ".
Definition PROMPT_MODEL : string := "  Model ID (e.g., gpt-4o): ".
Definition PROMPT_ENV : string :=
  "  Environment Variable for API Key (e.g., OPENAI_API_KEY): ".
Definition PROMPT_CTX : string := "  Context Length [128000]: ".
Definition PROMPT_SECRET (env_var_name : string) : string :=
  "  Enter value for " +:+ env_var_name +:+ " (will be saved): ".

(** A field of a saved entry. *)
Definition entry_field (name : string) (entry : json) : option json :=
  match entry with
  | JDict fields => dict_get name fields
  | _ => None
  end.

(** How the display phase ends: with the confirm key, with the cancel key,
    or with an exception; and the keys left unread. *)
Inductive selection : Type :=
| Confirmed
| Cancelled
| Failed (e : exn).

Fixpoint display_outcome (ks : list ui_event) : selection * list ui_event :=
  match ks with
  | KeyEnter :: ks' => (Confirmed, ks')
  | KeyCtrlC :: ks' => (Cancelled, ks')
  | KeyOther :: ks' => display_outcome ks'
  | Fault e :: ks' => (Failed e, ks')
  | [] => (Failed EOFError, [])
  end.

(** The menu as [update_display] leaves it. *)
Definition shown (m : AddModelMenu) (p : ProviderInfo) : AddModelMenu :=
  set_controls
    (_render_navigation_hints
       [("", " Providers" +:+ LF +:+ LF);
        ("fg:ansicyan bold", " > " +:+ provider_name p); ("", LF); ("", LF)])
    _render_model_details m.

(** The file holds, under [key], the entry [entry]. *)
Definition saved_entry (w : World) (key : string) (entry : json) : Prop :=
  exists items,
    extra_models_file w = Holds (JDict items) /\ dict_get key items = Some entry.


(** The first required prompt that gets a line gets the empty one. *)
Inductive blank_required : list reply -> Prop :=
| blank_url rest : blank_required (Line "" :: rest)
| blank_model_id u rest :
    u <> "" -> blank_required (Line u :: Line "" :: rest)
| blank_env_var_name u m rest :
    u <> "" -> m <> "" -> blank_required (Line u :: Line m :: Line "" :: rest).

(** A run whose new events are [evs] and whose final state is [w'] saved
    an entry: the file holds a dict with the entry, and that dict was
    dumped. *)
Definition entry_saved (evs : list event) (w' : World) : Prop :=
  exists items key entry,
    extra_models_file w' = Holds (JDict items)
    /\ dict_get key items = Some entry
    /\ In (JsonDump (json_dumps 4 (JDict items))) evs.

(** A run from [w] to [w'] with new events [evs] left the persistence step
    alone. *)
Definition nothing_persisted (w : World) (evs : list event) (w' : World) : Prop :=
  existsb touches_file evs = false
  /\ extra_models_file w' = extra_models_file w.

(** The events of the display phase of a fresh menu. *)
Definition displayed : list event :=
  (display_acquire ++ [AppRun] ++ display_release)%list.

(** The state in which the prompt phase of a fresh menu starts, once the
    display was confirmed with [ks'] left unread. *)
Definition confirmed_world (w : World) (ks' : list ui_event) : World :=
  set_menu (set_result (Some "add_custom") (shown __init__ custom_openai_provider))
    (set_keys ks' (set_log (log w ++ displayed)%list w)).



(** The context length the flow keeps for an answer to the fourth prompt. *)
Definition context_length_for (ctx_input : string) : Z :=
  match py_int ctx_input with
  | Some n => n
  | None => 128000
  end.

(** The key and the entry the flow builds from the answers. *)
Definition key_for (m : string) : string := "custom-" +:+ m.
Definition entry_for (u m e c : string) : json :=
  model_config u m e (context_length_for c).




(* --------------------------------------------------------------------- *)
(** *** Sample states *)

(** A fresh process with the given keys, replies, environment and file, and
    a disk that can be written. *)
Definition sample_world (ks : list ui_event) (rs : list reply)
    (env : gmap string string) (f : file_state) : World :=
  {| menu := __init__; keys := ks; stdin := rs; environ := env;
     puppy_cfg := ∅; extra_models_file := f; mkdir_ok := true;
     open_w_ok := true; log := [] |}.

Definition store_a : list (string * json) :=
  [("a", JDict [("name", JStr "old")])].
Definition world_store_a : World :=
  sample_world [] [] ∅ (Holds (JDict store_a)).
Definition world_corrupt : World := sample_world [] [] ∅ Corrupt.
Definition world_not_a_dict : World :=
  sample_world [] [] ∅ (Holds (JList [])).

Definition answers_abc : list reply :=
  [Line "https://api.example/v1"; Line "m1"; Line "FOO_KEY"; Line "abc"; Line ""].
Definition answers_secret : list reply :=
  [Line "https://api.example/v1"; Line "m1"; Line "FOO_KEY"; Line "50000";
   Line "sekret"].

Definition world_abc : World := sample_world [KeyEnter] answers_abc ∅ Missing.
Definition world_blank_model : World :=
  sample_world [KeyEnter] [Line "https://api.example/v1"; Line ""] ∅ Missing.
Definition world_cancel : World :=
  sample_world [KeyOther; KeyCtrlC] answers_secret ∅ Missing.
Definition world_interrupted : World :=
  sample_world [KeyEnter] [Line "https://api.example/v1"; Interrupt] ∅ Missing.
Definition world_reused_menu : World :=
  {| menu := set_result (Some "add_custom") __init__; keys := [KeyCtrlC];
     stdin := answers_abc; environ := ∅; puppy_cfg := ∅;
     extra_models_file := Missing; mkdir_ok := true; open_w_ok := true;
     log := [] |}.

(** A cancellation notice. *)
Definition is_warning (e : event) : bool :=
  match e with
  | EmitWarning _ => true
  | _ => false
  end.


(** The prompts shown, in order. *)
Definition prompts_shown (evs : list event) : list string :=
  flat_map (fun e => match e with SafeInput p _ => [p] | _ => [] end) evs.

Definition REQUIRED_PROMPTS : list string :=
  [PROMPT_URL; PROMPT_MODEL; PROMPT_ENV; PROMPT_CTX].

Definition answers_two_models : list reply :=
  [Line "https://api.example/v1"; Line "m1"; Line "FOO_KEY"; Line ""; Line "";
   Line "https://api.example/v2"; Line "m2"; Line "BAR_KEY"; Line "4096"; Line ""].
Definition world_two_models : World :=
  sample_world [KeyEnter; KeyEnter] answers_two_models ∅ Missing.
Definition world_again : World :=
  sample_world [KeyEnter] answers_abc ∅
    (Holds (JDict [("custom-m1", JStr "old"); ("custom-m2", JStr "other")])).
Definition world_models_view : World :=
  set_menu {| providers := [custom_openai_provider; custom_openai_provider];
              current_provider := None; current_models := [];
              view_mode := "models"; selected_provider_idx := 1;
              selected_model_idx := 0; result := None;
              menu_control := []; preview_control := [] |}
    world_abc.

(* ===================================================================== *)
(** ** Symbolic execution *)
(* ===================================================================== *)

#[local] Arguments json_dumps : simpl never.
#[local] Arguments py_int : simpl never.
#[local] Arguments model_config : simpl never.

(** Unfold the monad and the collaborators. *)
Ltac py_prims :=
  unfold safe_input, set_config_value, emit_info, emit_warning,
    set_awaiting_user_input, stdout_write, stdout_flush, environ_get,
    environ_setitem, int_, path_exists, open_and_load, mkdir_parent,
    open_and_dump, os_guard, setitem, self, on_enter, on_ctrl_c, get_world,
    try_except, try_finally, call, modify, raise, mbind, Py_mbind, Py_bind,
    mret, Py_mret, Py_ret, set_menu, set_keys, set_stdin, set_environ,
    set_puppy_cfg, set_extra_models_file, set_log in *.

Ltac normalize_log := rewrite <- ?app_assoc; cbn [app].

(* ===================================================================== *)
(** ** Dicts *)
(* ===================================================================== *)

Lemma dict_get_setitem_eq k v d : dict_get k (dict_setitem k v d) = Some v.
Proof.
  induction d as [|[k' v'] d IH]; cbn.
  - by rewrite String.eqb_refl.
  - destruct (String.eqb k' k) eqn:E; cbn; rewrite ?String.eqb_refl, ?E; done.
Qed.

Lemma dict_get_setitem_ne k k' v d :
  k' <> k -> dict_get k' (dict_setitem k v d) = dict_get k' d.
Proof.
  intros Hne. induction d as [|[k0 v0] d IH]; cbn.
  - destruct (String.eqb_spec k k'); congruence.
  - destruct (String.eqb_spec k0 k) as [->|]; cbn.
    + destruct (String.eqb_spec k k'); congruence.
    + by rewrite IH.
Qed.

Lemma dict_keys_setitem_old k v d :
  In k (dict_keys d) -> dict_keys (dict_setitem k v d) = dict_keys d.
Proof.
  unfold dict_keys. induction d as [|[k0 v0] d IH]; cbn; [done|].
  intros [->|Hin].
  - by rewrite String.eqb_refl.
  - destruct (String.eqb_spec k0 k) as [->|]; cbn; [done|].
    by rewrite (IH Hin).
Qed.

Lemma dict_keys_setitem_new k v d :
  ~ In k (dict_keys d) -> dict_keys (dict_setitem k v d) = (dict_keys d ++ [k])%list.
Proof.
  unfold dict_keys. induction d as [|[k0 v0] d IH]; cbn; [done|].
  intros Hnin. destruct (String.eqb_spec k0 k) as [->|]; [tauto|].
  cbn. rewrite IH; [done|tauto].
Qed.

Lemma dict_get_In k d v : dict_get k d = Some v -> In k (dict_keys d).
Proof.
  unfold dict_keys. induction d as [|[k' v'] d IH]; cbn; [discriminate|].
  destruct (String.eqb_spec k' k) as [->|]; [by left|]. intros H. right. auto.
Qed.

Lemma dict_keys_setitem_In k v d x :
  In x (dict_keys (dict_setitem k v d)) -> x = k \/ In x (dict_keys d).
Proof.
  unfold dict_keys. induction d as [|[k0 v0] d IH]; cbn.
  - intros [<-|[]]. by left.
  - destruct (String.eqb_spec k0 k) as [->|]; cbn.
    + intros [<-|H]; [by left|by right; right].
    + intros [<-|H]; [by right; left|]. destruct (IH H); [by left|by right; right].
Qed.

Lemma dict_setitem_NoDup k v d :
  List.NoDup (dict_keys d) -> List.NoDup (dict_keys (dict_setitem k v d)).
Proof.
  induction d as [|[k0 v0] d IH]; cbn.
  - intros _. unfold dict_keys. cbn. constructor; [tauto|constructor].
  - intros H. inversion H as [|? ? Hnin Hnd]; subst.
    destruct (String.eqb_spec k0 k) as [->|Hne].
    + constructor; assumption.
    + change (List.NoDup (k0 :: dict_keys (dict_setitem k v d))).
      constructor; [|by apply IH].
      intros Hin. apply dict_keys_setitem_In in Hin as [->|Hin]; [done|].
      by apply Hnin.
Qed.

Lemma dict_setitem_setitem k v1 v2 d :
  dict_setitem k v2 (dict_setitem k v1 d) = dict_setitem k v2 d.
Proof.
  induction d as [|[k0 v0] d IH]; cbn.
  - by rewrite String.eqb_refl.
  - destruct (String.eqb k0 k) eqn:E; cbn.
    + by rewrite String.eqb_refl.
    + by rewrite E, IH.
Qed.

(* ===================================================================== *)
(** ** The persistence step *)
(* ===================================================================== *)

(** [_save_config] in one equation: it starts from [loaded], fails with
    [TypeError] when that is not a dict, and otherwise makes the directory,
    opens the file and dumps the updated dict. *)
Lemma _save_config_eq key config w :
  _save_config key config w =
  match loaded (extra_models_file w) with
  | JDict items =>
      let store := JDict (dict_setitem key config items) in
      if mkdir_ok w then
        if open_w_ok w then
          (Returns tt,
           set_log (log w ++ [Mkdir; OpenForWriting; JsonDump (json_dumps 4 store);
                              EmitInfo ("✅ Added " +:+ key +:+ " to configuration.")])%list
             (set_extra_models_file (Holds store) w))
        else (Raises OSError, set_log (log w ++ [Mkdir; OpenForWriting])%list w)
      else (Raises OSError, set_log (log w ++ [Mkdir])%list w)
  | _ => (Raises TypeError, w)
  end.
Proof.
  destruct w as [m ks rs env cfg f mk ow lg].
  unfold _save_config; py_prims; cbn.
  destruct f as [| | |[]]; cbn; try reflexivity;
    destruct mk, ow; cbn; normalize_log; reflexivity.
Qed.

(** One case split on what the next statement inspects. *)
Ltac py_case :=
  match goal with
  | |- context [_save_config _ _ _] => rewrite _save_config_eq
  | |- context [truthy ?s] => is_var s; destruct s
  | |- context [not_ (?m !! ?k)] => destruct (m !! k) eqn:?
  | |- context [loaded ?f] => is_var f; destruct f
  | |- context [match ?x with _ => _ end] =>
      first
        [ is_var x; destruct x
        | lazymatch x with
          | py_int _ => destruct x eqn:?
          end ]
  end; cbn.

(* ===================================================================== *)
(** ** The display phase *)
(* ===================================================================== *)

Lemma event_loop_eq ks w :
  event_loop ks w =
  match display_outcome ks with
  | (Confirmed, ks') =>
      (Returns tt, set_menu (set_result (Some "add_custom") (menu w)) (set_keys ks' w))
  | (Cancelled, ks') => (Returns tt, set_keys ks' w)
  | (Failed e, ks') => (Raises e, set_keys ks' w)
  end.
Proof.
  induction ks as [|[| | |e] ks IH]; cbn; try reflexivity. exact IH.
Qed.

Lemma display_outcome_other n ks :
  display_outcome (replicate n KeyOther ++ ks) = display_outcome ks.
Proof. induction n as [|n IH]; cbn; [reflexivity|exact IH]. Qed.

Lemma display_outcome_confirmed ks ks' :
  display_outcome ks = (Confirmed, ks') -> display_ends_with KeyEnter ks ks'.
Proof.
  induction ks as [|[| | |e] ks IH]; cbn; intros H; try discriminate.
  - injection H as <-. by exists 0%nat.
  - destruct (IH H) as [n ->]. by exists (S n).
Qed.

Lemma display_ends_with_enter ks ks' :
  display_ends_with KeyEnter ks ks' -> display_outcome ks = (Confirmed, ks').
Proof. intros [n ->]. by rewrite display_outcome_other. Qed.

Lemma display_ends_with_ctrl_c ks ks' :
  display_ends_with KeyCtrlC ks ks' -> display_outcome ks = (Cancelled, ks').
Proof. intros [n ->]. by rewrite display_outcome_other. Qed.


(** [run] in one equation: the terminal is acquired, the display runs,
    the terminal is released, and the prompts follow when the stored result
    says so. *)
Lemma run_eq w :
  run w =
  match providers (menu w) with
  | [] =>
      (Raises IndexError,
       set_menu (set_controls [] [] (menu w))
         (set_log (log w ++ display_acquire ++ display_release)%list w))
  | p :: _ =>
      let '(sel, ks') := display_outcome (keys w) in
      let w' :=
        set_keys ks'
          (set_log (log w ++ display_acquire ++ [AppRun] ++ display_release)%list w) in
      match sel with
      | Confirmed =>
          _prompt_custom_flow
            (set_menu (set_result (Some "add_custom") (shown (menu w) p)) w')
      | Cancelled =>
          if result_is (menu w) "add_custom"
          then _prompt_custom_flow (set_menu (shown (menu w) p) w')
          else (Returns false, set_menu (shown (menu w) p) w')
      | Failed e => (Raises e, set_menu (shown (menu w) p) w')
      end
  end.
Proof.
  destruct w as [m ks rs env cfg f mk ow lg].
  unfold run, update_display, _render_provider_list, app_run. py_prims. cbn.
  destruct (providers m) as [|p ps] eqn:Hp; cbn.
  - normalize_log. reflexivity.
  - rewrite event_loop_eq.
    destruct (display_outcome ks) as [[| |e] ks']; cbn; normalize_log;
      try reflexivity.
    unfold result_is; cbn.
    destruct (result m) as [s|]; [destruct (String.eqb s _)|]; reflexivity.
Qed.

(** [interactive_model_picker] runs a fresh menu: the prompts follow
    exactly when the display was confirmed. *)
Lemma interactive_model_picker_eq w :
  interactive_model_picker w =
  let '(sel, ks') := display_outcome (keys w) in
  let w' :=
    set_menu (shown __init__ custom_openai_provider)
      (set_keys ks'
         (set_log (log w ++ display_acquire ++ [AppRun] ++ display_release)%list w)) in
  match sel with
  | Confirmed =>
      _prompt_custom_flow
        (set_menu (set_result (Some "add_custom")
                     (shown __init__ custom_openai_provider)) w')
  | Cancelled => (Returns false, w')
  | Failed e => (Raises e, w')
  end.
Proof.
  unfold interactive_model_picker.
  change ((modify (set_menu __init__);; run) w) with (run (set_menu __init__ w)).
  rewrite run_eq. destruct w as [m ks rs env cfg f mk ow lg]; cbn.
  destruct (display_outcome ks) as [[| |e] ks']; reflexivity.
Qed.

(* ===================================================================== *)
(** ** The prompt phase *)
(* ===================================================================== *)

#[local] Arguments dict_setitem : simpl never.

Ltac flow_leaf :=
  eexists; split; [normalize_log; reflexivity|]; cbn;
  repeat match goal with
    | |- _ /\ _ => split
    | |- _ <-> _ => split
    | |- _ -> _ => intro
    end;
  try reflexivity; try discriminate;
  try (do 3 eexists; split; [reflexivity|];
       split; [apply dict_get_setitem_eq|cbn; tauto]).

(** Every path of the prompt phase at once: what it returns against what
    it logged and changed. *)
Lemma flow_summary w :
  let '(o, w') := _prompt_custom_flow w in
  exists evs, log w' = (log w ++ evs)%list
    /\ existsb is_terminal evs = false
    /\ (o = Returns true <-> existsb is_dump evs = true)
    /\ (existsb is_cancelled_prompt evs = true -> o = Returns false)
    /\ (o = Returns false ->
        existsb touches_file evs = false /\ existsb stores_secret evs = false
        /\ extra_models_file w' = extra_models_file w
        /\ environ w' = environ w /\ puppy_cfg w' = puppy_cfg w)
    /\ (o = Returns true -> entry_saved evs w')
    /\ menu w' = menu w /\ keys w' = keys w.
Proof.
  destruct w as [m ks rs env cfg f mk ow lg].
  unfold _prompt_custom_flow, entry_saved. py_prims. cbn.
  repeat (py_case; try solve [flow_leaf]).
Qed.

(** A blank answer at a required prompt ends the prompt phase with
    [False]. *)
Lemma flow_blank w :
  blank_required (stdin w) -> (_prompt_custom_flow w).1 = Returns false.
Proof.
  destruct w as [m ks rs env cfg f mk ow lg]. cbn [stdin].
  intros H. unfold _prompt_custom_flow. py_prims.
  inversion H as [rest E|u rest Hu E|u m' rest Hu Hm E]; subst; cbn;
    try reflexivity.
  - destruct u; [done|]. reflexivity.
  - destruct u; [done|]. destruct m'; [done|]. reflexivity.
Qed.

Lemma py_int_empty : py_int "" = None.
Proof. reflexivity. Qed.













Ltac true_leaf :=
  let H := fresh "H" in
  intros H;
  first
    [ discriminate H
    | injection H as <-;
      unfold entry_for, key_for, context_length_for;
      eexists _, _, _, _, _, _, _; cbn;
      split; [reflexivity|];
      rewrite ?py_int_empty;
      repeat match goal with E : py_int _ = _ |- _ => rewrite E; clear E end;
      repeat match goal with
        | |- _ /\ _ => split
        end;
      [discriminate|discriminate|discriminate|reflexivity
      |reflexivity|reflexivity|reflexivity
      |f_equal; normalize_log; reflexivity|reflexivity] ].

(** A run of the prompt phase that returns [True], read backwards: the
    four prompts were answered, the three required ones with non-empty
    lines, the store loaded as a dict, the disk took the write, and the
    file now holds the store with the entry built from the answers. *)
Lemma flow_true w w' :
  _prompt_custom_flow w = (Returns true, w') ->
  exists u m e c rest items pre,
    stdin w = Line u :: Line m :: Line e :: Line c :: rest
    /\ u <> "" /\ m <> "" /\ e <> ""
    /\ loaded (extra_models_file w) = JDict items
    /\ mkdir_ok w = true /\ open_w_ok w = true
    /\ extra_models_file w' =
       Holds (JDict (dict_setitem (key_for m) (entry_for u m e c) items))
    /\ log w' =
       ((log w ++ pre)
        ++ [Mkdir; OpenForWriting;
            JsonDump (json_dumps 4
              (JDict (dict_setitem (key_for m) (entry_for u m e c) items)));
            EmitInfo ("✅ Added " +:+ key_for m +:+ " to configuration.")])%list
    /\ existsb touches_file pre = false.
Proof.
  destruct w as [mn ks rs env cfg f mk ow lg].
  unfold _prompt_custom_flow. py_prims. cbn.
  repeat (py_case; try solve [true_leaf]).
Qed.

(* ===================================================================== *)
(** ** The whole flow *)
(* ===================================================================== *)

Lemma picker_confirmed w ks' :
  display_ends_with KeyEnter (keys w) ks' ->
  interactive_model_picker w = _prompt_custom_flow (confirmed_world w ks').
Proof.
  intros Hk. rewrite interactive_model_picker_eq.
  rewrite (display_ends_with_enter _ _ Hk). reflexivity.
Qed.

Lemma picker_true w w' :
  interactive_model_picker w = (Returns true, w') ->
  exists ks', display_ends_with KeyEnter (keys w) ks'
    /\ _prompt_custom_flow (confirmed_world w ks') = (Returns true, w').
Proof.
  rewrite interactive_model_picker_eq.
  destruct (display_outcome (keys w)) as [[| |e] ks'] eqn:Hd; cbn zeta;
    try discriminate.
  intros H. exists ks'. split; [by apply display_outcome_confirmed|exact H].
Qed.

(** A run of the whole flow that returns [True], read backwards. *)
Lemma saved_run w w' :
  interactive_model_picker w = (Returns true, w') ->
  exists ks' u m e c rest items pre,
    display_ends_with KeyEnter (keys w) ks'
    /\ stdin w = Line u :: Line m :: Line e :: Line c :: rest
    /\ u <> "" /\ m <> "" /\ e <> ""
    /\ loaded (extra_models_file w) = JDict items
    /\ mkdir_ok w = true /\ open_w_ok w = true
    /\ extra_models_file w' =
       Holds (JDict (dict_setitem (key_for m) (entry_for u m e c) items))
    /\ log w' =
       ((log w ++ pre)
        ++ [Mkdir; OpenForWriting;
            JsonDump (json_dumps 4
              (JDict (dict_setitem (key_for m) (entry_for u m e c) items)));
            EmitInfo ("✅ Added " +:+ key_for m +:+ " to configuration.")])%list
    /\ existsb touches_file pre = false.
Proof.
  intros H. destruct (picker_true _ _ H) as (ks' & Hk & Hflow).
  destruct (flow_true _ _ Hflow)
    as (u & m & e & c & rest & items & pre & Hin & Hu & Hm & He & Hl & Hmk
        & How & Hf & Hlog & Hpre).
  exists ks', u, m, e, c, rest, items, (displayed ++ pre)%list.
  repeat split; try assumption.
  rewrite Hlog. cbn. by rewrite <- !app_assoc.
Qed.

Lemma entry_for_context_length u m e c :
  entry_field "context_length" (entry_for u m e c)
  = Some (JInt (context_length_for c)).
Proof. reflexivity. Qed.


Lemma saved_run_entry w w' u m e c rest :
  stdin w = Line u :: Line m :: Line e :: Line c :: rest ->
  interactive_model_picker w = (Returns true, w') ->
  saved_entry w' ("custom-" +:+ m) (entry_for u m e c).
Proof.
  intros Hin H.
  destruct (saved_run _ _ H)
    as (ks' & u' & m' & e' & c' & rest' & items & pre & _ & Hin' & _ & _ & _
        & _ & _ & _ & Hf & _).
  rewrite Hin in Hin'. injection Hin' as <- <- <- <- <-.
  exists (dict_setitem (key_for m) (entry_for u m e c) items).
  split; [exact Hf|apply dict_get_setitem_eq].
Qed.



Lemma entry_saved_app pre evs w' :
  entry_saved evs w' -> entry_saved (pre ++ evs) w'.
Proof.
  intros (items & key & entry & Hf & Hg & Hin).
  exists items, key, entry. repeat split; try assumption.
  apply in_or_app. by right.
Qed.

(* --------------------------------------------------------------------- *)
(** *** The text of the dump *)




(* --------------------------------------------------------------------- *)
(** *** Counting events *)

Lemma count_app p a b : count p (a ++ b) = (count p a + count p b)%nat.
Proof. unfold count. by rewrite List.filter_app, length_app. Qed.




(* ===================================================================== *)
(** ** The properties of the specification *)
(* ===================================================================== *)

(** C1.  The whole flow, [interactive_model_picker], from any state.  It
    returns [True] exactly when the updated store was dumped to the file,
    and then the file holds the saved entry.  When the display ends with
    the cancel key it returns [False] without reaching a prompt or the
    persistence step.  When a prompt is ended by the cancel signal or the
    end of input it returns [False] with the file untouched. *)
Theorem C1_flow_result w :
  let '(o, w') := interactive_model_picker w in
  exists evs, log w' = (log w ++ evs)%list
    /\ (o = Returns true <-> existsb is_dump evs = true)
    /\ (o = Returns true -> entry_saved evs w')
    /\ (forall rest, display_ends_with KeyCtrlC (keys w) rest ->
        o = Returns false /\ nothing_persisted w evs w'
        /\ existsb is_prompt evs = false)
    /\ (existsb is_cancelled_prompt evs = true ->
        o = Returns false /\ nothing_persisted w evs w').
Proof.
  rewrite interactive_model_picker_eq.
  destruct (display_outcome (keys w)) as [[| |e] ks'] eqn:Hd; cbn zeta.
  - match goal with |- context [_prompt_custom_flow ?W] =>
      pose proof (flow_summary W) as H; destruct (_prompt_custom_flow W) as [o w']
    end.
    destruct H as (evs & Hlog & _ & Htrue & Hcancel & Hfalse & Hsaved & _).
    exists (displayed ++ evs)%list.
    split; [rewrite Hlog; cbn; normalize_log; reflexivity|].
    rewrite !existsb_app. cbn.
    split; [exact Htrue|].
    split; [intros Ho; apply (entry_saved_app displayed), Hsaved, Ho|].
    split.
    + intros rest Hc. apply display_ends_with_ctrl_c in Hc. congruence.
    + intros Hc. specialize (Hcancel Hc).
      destruct (Hfalse Hcancel) as (Ht & _ & Hf & _).
      split; [exact Hcancel|]. split; [|exact Hf].
      cbn. exact Ht.
  - exists displayed.
    split; [cbn; normalize_log; reflexivity|].
    cbn. unfold nothing_persisted. cbn.
    repeat split; try discriminate; try reflexivity.
  - exists displayed.
    split; [cbn; normalize_log; reflexivity|].
    cbn. split; [split; discriminate|]. split; [discriminate|].
    split; [|discriminate].
    intros rest Hc. apply display_ends_with_ctrl_c in Hc. congruence.
Qed.

Lemma C1_flow_result_witness :
  (interactive_model_picker world_cancel).1 = Returns false
  /\ extra_models_file (interactive_model_picker world_cancel).2 = Missing
  /\ (interactive_model_picker world_interrupted).1 = Returns false
  /\ entry_saved (log (interactive_model_picker world_abc).2)
       (interactive_model_picker world_abc).2.
Proof.
  pose proof (C1_flow_result world_cancel) as Hc.
  pose proof (C1_flow_result world_interrupted) as Hi.
  pose proof (C1_flow_result world_abc) as Hs.
  destruct (interactive_model_picker world_cancel) as [o1 w1].
  destruct (interactive_model_picker world_interrupted) as [o2 w2] eqn:E2.
  destruct (interactive_model_picker world_abc) as [o3 w3] eqn:E3.
  cbn [fst snd].
  destruct Hc as (evs1 & _ & _ & _ & Hcancel & _).
  destruct (Hcancel []) as (-> & (_ & Hfile) & _); [by exists 1%nat|].
  destruct Hi as (evs2 & Hlog2 & _ & _ & _ & Hprompt).
  destruct Hs as (evs3 & Hlog3 & Hiff & Hsaved & _).
  cbn [log world_interrupted world_abc sample_world app] in Hlog2, Hlog3.
  split; [reflexivity|]. split; [exact Hfile|]. split.
  - apply Hprompt. rewrite <- Hlog2.
    replace w2 with (interactive_model_picker world_interrupted).2
      by (by rewrite E2).
    vm_compute. reflexivity.
  - rewrite Hlog3. apply Hsaved.
    replace o3 with (interactive_model_picker world_abc).1 by (by rewrite E3).
    vm_compute. reflexivity.
Defined.

(** [run] on a menu object that already holds the result of an earlier
    confirmed run: the cancel key at the display does not keep it from the
    prompts.  ([interactive_model_picker] always runs a fresh menu.) *)
Lemma run_reused_menu_cancel w p ps ks' :
  providers (menu w) = p :: ps ->
  result (menu w) = Some "add_custom" ->
  display_ends_with KeyCtrlC (keys w) ks' ->
  run w =
  _prompt_custom_flow
    (set_menu (shown (menu w) p)
       (set_keys ks' (set_log (log w ++ displayed)%list w))).
Proof.
  intros Hp Hr Hk. rewrite run_eq, Hp, (display_ends_with_ctrl_c _ _ Hk).
  unfold result_is. rewrite Hr. reflexivity.
Qed.

Lemma run_reused_menu_cancel_witness :
  (run world_reused_menu).1 = Returns true.
Proof.
  rewrite (run_reused_menu_cancel world_reused_menu custom_openai_provider []
             [] eq_refl eq_refl ltac:(by exists 0%nat)).
  vm_compute. reflexivity.
Defined.

(** C2.  [_save_config] on a file that holds a dict, with a disk that takes
    the write: the file afterwards holds that dict with [key] set to
    [entry] and nothing else changed.  Every other key keeps its value; the
    keys keep their order, a new key going last; and the dump written is
    that of the updated dict. *)
Theorem C2_save_preserves_other_keys w key entry items :
  extra_models_file w = Holds (JDict items) ->
  mkdir_ok w = true -> open_w_ok w = true ->
  exists w' items',
    _save_config key entry w = (Returns tt, w')
    /\ items' = dict_setitem key entry items
    /\ extra_models_file w' = Holds (JDict items')
    /\ log w' = (log w ++ [Mkdir; OpenForWriting;
                           JsonDump (json_dumps 4 (JDict items'));
                           EmitInfo ("✅ Added " +:+ key +:+ " to configuration.")])%list
    /\ dict_get key items' = Some entry
    /\ (forall k, k <> key -> dict_get k items' = dict_get k items)
    /\ (In key (dict_keys items) -> dict_keys items' = dict_keys items)
    /\ (~ In key (dict_keys items) -> dict_keys items' = (dict_keys items ++ [key])%list).
Proof.
  intros Hf Hm Ho. rewrite _save_config_eq, Hf, Hm, Ho. cbn.
  eexists _, _. split; [reflexivity|]. split; [reflexivity|].
  split; [reflexivity|]. split; [reflexivity|].
  split; [apply dict_get_setitem_eq|].
  split; [intros k Hk; by apply dict_get_setitem_ne|].
  split; [apply dict_keys_setitem_old|apply dict_keys_setitem_new].
Qed.

Lemma C2_save_preserves_other_keys_witness :
  exists w' items',
    _save_config "b" (JDict [("name", JStr "new")]) world_store_a
    = (Returns tt, w')
    /\ extra_models_file w' = Holds (JDict items')
    /\ dict_get "a" items' = Some (JDict [("name", JStr "old")])
    /\ dict_get "b" items' = Some (JDict [("name", JStr "new")])
    /\ dict_keys items' = ["a"; "b"].
Proof.
  destruct (C2_save_preserves_other_keys world_store_a
              "b" (JDict [("name", JStr "new")]) store_a
              eq_refl eq_refl eq_refl)
    as (w' & items' & Hrun & Hitems & Hfile & _ & Hb & Hother & _ & Hnew).
  exists w', items'. split; [exact Hrun|]. split; [exact Hfile|].
  split; [rewrite (Hother "a"); [reflexivity|discriminate]|].
  split; [exact Hb|].
  rewrite Hnew; [reflexivity|]. cbn. intros [H|[]]. discriminate.
Defined.

(** C3.  Once the display is confirmed, a blank answer at the first
    required prompt that gets a line (base URL, model id or variable name)
    ends the whole flow with [False]; nothing touched the configuration
    file, no secret was stored, and the file, the environment and the
    configuration store are as before. *)
Theorem C3_blank_required_input_aborts w ks' :
  display_ends_with KeyEnter (keys w) ks' ->
  blank_required (stdin w) ->
  exists w' evs,
    interactive_model_picker w = (Returns false, w')
    /\ log w' = (log w ++ evs)%list
    /\ existsb touches_file evs = false
    /\ existsb stores_secret evs = false
    /\ extra_models_file w' = extra_models_file w
    /\ environ w' = environ w
    /\ puppy_cfg w' = puppy_cfg w.
Proof.
  intros Hk Hb. rewrite (picker_confirmed _ _ Hk).
  pose proof (flow_summary (confirmed_world w ks')) as H.
  pose proof (flow_blank (confirmed_world w ks') Hb) as Ho.
  destruct (_prompt_custom_flow (confirmed_world w ks')) as [o w'].
  cbn in Ho. subst o.
  destruct H as (evs & Hlog & _ & _ & _ & Hfalse & _).
  destruct (Hfalse eq_refl) as (Ht & Hs & Hf & He & Hc).
  exists w', (displayed ++ evs)%list.
  split; [reflexivity|].
  split; [rewrite Hlog; cbn; normalize_log; reflexivity|].
  rewrite !existsb_app, Ht, Hs. cbn.
  repeat split; assumption.
Qed.

Lemma C3_blank_required_input_aborts_witness :
  exists w' evs,
    interactive_model_picker world_blank_model = (Returns false, w')
    /\ log w' = (log world_blank_model ++ evs)%list
    /\ existsb touches_file evs = false
    /\ existsb stores_secret evs = false
    /\ extra_models_file w' = extra_models_file world_blank_model
    /\ environ w' = environ world_blank_model
    /\ puppy_cfg w' = puppy_cfg world_blank_model.
Proof.
  apply (C3_blank_required_input_aborts _ []).
  - by exists 0%nat.
  - apply blank_model_id. discriminate.
Defined.

(** C4.  [_save_config] on a file that exists but cannot be opened or does
    not parse, with a disk that takes the write: it returns normally, the
    only events are those of the write and the confirmation, and the file
    afterwards holds exactly the one new entry; what it held before is
    gone. *)
Theorem C4_unloadable_file_is_empty_store w key entry :
  extra_models_file w = Unreadable \/ extra_models_file w = Corrupt ->
  mkdir_ok w = true -> open_w_ok w = true ->
  _save_config key entry w =
    (Returns tt,
     set_log (log w ++ [Mkdir; OpenForWriting;
                        JsonDump (json_dumps 4 (JDict [(key, entry)]));
                        EmitInfo ("✅ Added " +:+ key +:+ " to configuration.")])%list
       (set_extra_models_file (Holds (JDict [(key, entry)])) w)).
Proof.
  intros Hf Hm Ho. rewrite _save_config_eq, Hm, Ho.
  destruct Hf as [-> | ->]; reflexivity.
Qed.

Lemma C4_unloadable_file_is_empty_store_witness :
  let '(o, w') := _save_config "custom-m" (JStr "entry") world_corrupt in
  o = Returns tt
  /\ extra_models_file w' = Holds (JDict [("custom-m", JStr "entry")])
  /\ existsb (fun e => match e with EmitWarning _ => true | _ => false end)
       (log w') = false.
Proof.
  rewrite (C4_unloadable_file_is_empty_store
             world_corrupt "custom-m" (JStr "entry")
             (or_intror eq_refl) eq_refl eq_refl).
  repeat split.
Defined.

(** A file that parses to something other than a dict is not recovered
    from: the item assignment raises [TypeError] before anything is
    written. *)
Lemma _save_config_not_a_dict w key entry v :
  extra_models_file w = Holds v ->
  (forall items, v <> JDict items) ->
  _save_config key entry w = (Raises TypeError, w).
Proof.
  intros Hf Hv. rewrite _save_config_eq, Hf. cbn.
  destruct v; try reflexivity. by destruct (Hv items).
Qed.

Lemma _save_config_not_a_dict_witness :
  _save_config "custom-m" (JStr "entry") world_not_a_dict
  = (Raises TypeError, world_not_a_dict).
Proof.
  apply (_save_config_not_a_dict _ _ _ (JList [])); [reflexivity|discriminate].
Defined.




(** C6.  In a run that returns [True] after the fourth prompt was answered
    with [c], the saved entry has an integer [context_length]: 128000 when
    [c] is blank, 128000 when [c] does not parse as an integer (such as
    "abc"), and 50000 when [c] is "50000". *)
Theorem C6_context_length_default w w' u m e c rest :
  stdin w = Line u :: Line m :: Line e :: Line c :: rest ->
  interactive_model_picker w = (Returns true, w') ->
  exists entry n,
    saved_entry w' ("custom-" +:+ m) entry
    /\ entry_field "context_length" entry = Some (JInt n)
    /\ (c = "" -> n = 128000)
    /\ (py_int c = None -> n = 128000)
    /\ (c = "abc" -> n = 128000)
    /\ (c = "50000" -> n = 50000).
Proof.
  intros Hin H. exists (entry_for u m e c), (context_length_for c).
  split; [exact (saved_run_entry _ _ _ _ _ _ _ Hin H)|].
  split; [apply entry_for_context_length|].
  unfold context_length_for.
  repeat split; intros ->; reflexivity.
Qed.

Lemma C6_context_length_default_witness :
  exists entry,
    saved_entry (interactive_model_picker world_abc).2 "custom-m1" entry
    /\ entry_field "context_length" entry = Some (JInt 128000).
Proof.
  assert (interactive_model_picker world_abc
          = (Returns true, (interactive_model_picker world_abc).2)) as Hrun
    by (vm_compute; reflexivity).
  destruct (C6_context_length_default world_abc _ _ _ _ _ _ eq_refl Hrun)
    as (entry & n & Hs & Hf & _ & _ & Habc & _).
  exists entry. split; [exact Hs|]. rewrite Hf, (Habc eq_refl). reflexivity.
Defined.









(* ===================================================================== *)
(** ** Further properties *)
(* ===================================================================== *)

Ltac used_replies :=
  first
    [ exists []; split; [reflexivity|]
    | eexists [_]; split; [reflexivity|]
    | eexists [_; _]; split; [reflexivity|]
    | eexists [_; _; _]; split; [reflexivity|]
    | eexists [_; _; _; _]; split; [reflexivity|]
    | eexists [_; _; _; _; _]; split; [reflexivity|] ].

Ltac fifth_prompt :=
  let H := fresh in
  intros ? H;
  first
    [ discriminate H
    | injection H as <-; eexists; split;
      [repeat first [left; reflexivity | right]|reflexivity] ].

Ltac io_leaf :=
  eexists; split; [normalize_log; reflexivity|];
  used_replies; cbn;
  repeat match goal with
    | |- _ /\ _ => split
    end;
  first [reflexivity | lia | fifth_prompt].

(** Every path of the prompt phase at once: the replies it reads, the
    prompts it shows and the notices it gives. *)
Lemma flow_io w :
  let '(o, w') := _prompt_custom_flow w in
  exists evs, log w' = (log w ++ evs)%list
    /\ exists used, stdin w = (used ++ stdin w')%list
    /\ (length used <= count is_prompt evs)%nat
    /\ (count is_prompt evs <= 5)%nat
    /\ existsb is_warning evs = existsb is_cancelled_prompt evs
    /\ (count is_warning evs <= 1)%nat
    /\ take 4 (prompts_shown evs)
       = take (length (prompts_shown evs)) REQUIRED_PROMPTS
    /\ (forall p, prompts_shown evs !! 4%nat = Some p ->
        exists e, In (SafeInput PROMPT_ENV (Line e)) evs
                  /\ p = PROMPT_SECRET e).
Proof.
  destruct w as [m ks rs env cfg f mk ow lg].
  unfold _prompt_custom_flow, count. py_prims. cbn.
  repeat (py_case; try solve [io_leaf]).
Qed.

(* --------------------------------------------------------------------- *)
(** *** Input and notices of the whole flow *)

Lemma picker_events w :
  let '(o, w') := interactive_model_picker w in
  (exists rest, display_ends_with KeyEnter (keys w) rest
     /\ (o, w') = _prompt_custom_flow (confirmed_world w rest))
  \/ ((forall rest, ~ display_ends_with KeyEnter (keys w) rest)
      /\ log w' = (log w ++ displayed)%list /\ stdin w' = stdin w
      /\ o <> Returns true).
Proof.
  rewrite interactive_model_picker_eq.
  destruct (display_outcome (keys w)) as [[| |e] ks'] eqn:Hd; cbn zeta.
  - match goal with |- context [_prompt_custom_flow ?W] =>
      destruct (_prompt_custom_flow W) as [o w'] eqn:E
    end.
    left. exists ks'. split; [by apply display_outcome_confirmed|].
    by rewrite <- E.
  - right. split; [|by repeat split].
    intros rest Hk. apply display_ends_with_enter in Hk. congruence.
  - right. split; [|by repeat split].
    intros rest Hk. apply display_ends_with_enter in Hk. congruence.
Qed.

(** The replies are read from the front, at most one for each prompt shown,
    and at most five prompts are shown; what the flow did not read is left
    on the input. *)
Theorem picker_reads_at_most_five_replies w :
  let '(o, w') := interactive_model_picker w in
  exists evs used,
    log w' = (log w ++ evs)%list
    /\ stdin w = (used ++ stdin w')%list
    /\ (length used <= count is_prompt evs)%nat
    /\ (count is_prompt evs <= 5)%nat.
Proof.
  pose proof (picker_events w) as H.
  destruct (interactive_model_picker w) as [o w'].
  destruct H as [(rest & Hk & Hrun)|(_ & Hlog & Hstd & _)].
  - pose proof (flow_io (confirmed_world w rest)) as F. rewrite <- Hrun in F.
    destruct F as (evs & Hlog & used & Hstd & Hlen & Hfive & _).
    exists (displayed ++ evs)%list, used.
    split; [rewrite Hlog; cbn; by rewrite <- !app_assoc|].
    split; [exact Hstd|]. rewrite count_app.
    change (count is_prompt displayed) with 0%nat. by split.
  - exists displayed, []. rewrite Hstd. repeat split; try assumption.
    + cbn. lia.
    + vm_compute. lia.
Qed.

Lemma flow_blank_silent w :
  blank_required (stdin w) ->
  exists evs, log (_prompt_custom_flow w).2 = (log w ++ evs)%list
              /\ existsb is_warning evs = false.
Proof.
  destruct w as [m ks rs env cfg f mk ow lg]. cbn [stdin].
  intros H. unfold _prompt_custom_flow. py_prims.
  inversion H as [rest E|u rest Hu E|u m' rest Hu Hm E]; subst; cbn.
  - eexists. split; [normalize_log; reflexivity|reflexivity].
  - destruct u; [done|]. cbn.
    eexists. split; [normalize_log; reflexivity|reflexivity].
  - destruct u; [done|]. destruct m'; [done|]. cbn.
    eexists. split; [normalize_log; reflexivity|reflexivity].
Qed.

(** The prompt phase gives its cancellation notice exactly when a prompt
    was ended by the cancel signal or the end of input, and then once; a
    blank answer to a required prompt ends the flow without any notice. *)
Theorem picker_cancel_notice w :
  let '(o, w') := interactive_model_picker w in
  exists evs,
    log w' = (log w ++ evs)%list
    /\ existsb is_warning evs = existsb is_cancelled_prompt evs
    /\ (count is_warning evs <= 1)%nat
    /\ (blank_required (stdin w) -> existsb is_warning evs = false).
Proof.
  pose proof (picker_events w) as H.
  destruct (interactive_model_picker w) as [o w'] eqn:Hp.
  destruct H as [(rest & Hk & Hrun)|(_ & Hlog & Hstd & _)].
  - pose proof (flow_io (confirmed_world w rest)) as F.
    rewrite <- Hrun in F.
    destruct F as (evs & Hlog & _ & _ & _ & _ & Hw & Hone & _).
    exists (displayed ++ evs)%list.
    split; [rewrite Hlog; cbn; by rewrite <- !app_assoc|].
    rewrite !existsb_app, count_app.
    change (count is_warning displayed) with 0%nat.
    split; [exact Hw|]. split; [exact Hone|].
    intros Hb. cbn.
    destruct (flow_blank_silent (confirmed_world w rest) Hb) as (evs0 & Hl0 & Hs0).
    rewrite <- Hrun in Hl0. cbn [snd] in Hl0. rewrite Hlog in Hl0.
    apply app_inv_head in Hl0. by subst.
  - exists displayed. repeat split; try assumption. vm_compute. lia.
Qed.

Lemma prompts_shown_app a b :
  prompts_shown (a ++ b) = (prompts_shown a ++ prompts_shown b)%list.
Proof. unfold prompts_shown. apply flat_map_app. Qed.

(** The prompts come in one order: base URL, model id, variable name,
    context length, each at most once and none without the ones before it;
    a fifth prompt, if there is one, asks for the value of the variable
    that was named at the third. *)
Theorem picker_prompts_in_order w :
  let '(o, w') := interactive_model_picker w in
  exists evs,
    log w' = (log w ++ evs)%list
    /\ take 4 (prompts_shown evs)
       = take (length (prompts_shown evs)) REQUIRED_PROMPTS
    /\ (forall p, prompts_shown evs !! 4%nat = Some p ->
        exists e, In (SafeInput PROMPT_ENV (Line e)) evs
                  /\ p = PROMPT_SECRET e).
Proof.
  pose proof (picker_events w) as H.
  destruct (interactive_model_picker w) as [o w'].
  destruct H as [(rest & Hk & Hrun)|(_ & Hlog & Hstd & _)].
  - pose proof (flow_io (confirmed_world w rest)) as F. rewrite <- Hrun in F.
    destruct F as (evs & Hlog & _ & _ & _ & _ & _ & _ & Hfour & Hfifth).
    exists (displayed ++ evs)%list.
    split; [rewrite Hlog; cbn; by rewrite <- !app_assoc|].
    rewrite prompts_shown_app.
    change (prompts_shown displayed) with (@nil string). cbn [app].
    split; [exact Hfour|].
    intros p Hp. destruct (Hfifth p Hp) as (e & Hin & ->).
    exists e. split; [apply in_or_app; by right|reflexivity].
  - exists displayed. split; [exact Hlog|]. split; [reflexivity|].
    intros p [=].
Qed.

Lemma picker_cancel_notice_witness :
  existsb is_warning (log (interactive_model_picker world_blank_model).2) = false
  /\ existsb is_warning (log (interactive_model_picker world_interrupted).2) = true.
Proof.
  pose proof (picker_cancel_notice world_blank_model) as Hb.
  pose proof (picker_cancel_notice world_interrupted) as Hi.
  destruct (interactive_model_picker world_blank_model) as [o1 w1].
  destruct (interactive_model_picker world_interrupted) as [o2 w2] eqn:E2.
  destruct Hb as (evs1 & Hlog1 & _ & _ & Hblank).
  destruct Hi as (evs2 & Hlog2 & Hw2 & _).
  cbn [snd log world_blank_model world_interrupted sample_world app] in *.
  rewrite Hlog1, Hlog2. split.
  - apply Hblank. apply blank_model_id. discriminate.
  - rewrite Hw2, <- Hlog2.
    replace w2 with (interactive_model_picker world_interrupted).2
      by (by rewrite E2).
    vm_compute. reflexivity.
Defined.

(* --------------------------------------------------------------------- *)
(** *** The secret and the models file *)






(* --------------------------------------------------------------------- *)
(** *** Runs over an existing store *)

Lemma key_for_inj m1 m2 : key_for m1 = key_for m2 -> m1 = m2.
Proof. unfold key_for. intros H. by injection H. Qed.

(** A run that returns [True] for a model id the store already holds
    replaces that entry where it stands: the keys and their order are as
    before, and every other entry is as before. *)
Theorem readd_model_id_overwrites w w' u m e c rest items old :
  stdin w = Line u :: Line m :: Line e :: Line c :: rest ->
  interactive_model_picker w = (Returns true, w') ->
  extra_models_file w = Holds (JDict items) ->
  dict_get ("custom-" +:+ m) items = Some old ->
  exists items',
    extra_models_file w' = Holds (JDict items')
    /\ dict_keys items' = dict_keys items
    /\ dict_get ("custom-" +:+ m) items' = Some (entry_for u m e c)
    /\ (forall k, k <> "custom-" +:+ m -> dict_get k items' = dict_get k items).
Proof.
  intros Hin H Hf Hold.
  destruct (saved_run _ _ H)
    as (ks' & u' & m' & e' & c' & rest' & items0 & pre & _ & Hin' & _ & _ & _
        & Hl & _ & _ & Hf' & _).
  rewrite Hin in Hin'. injection Hin' as <- <- <- <- <-.
  rewrite Hf in Hl. injection Hl as <-.
  eexists. split; [exact Hf'|].
  split; [apply dict_keys_setitem_old; by eapply dict_get_In|].
  split; [apply dict_get_setitem_eq|].
  intros k Hk. by apply dict_get_setitem_ne.
Qed.

Lemma readd_model_id_overwrites_witness :
  exists items',
    extra_models_file (interactive_model_picker world_again).2
    = Holds (JDict items')
    /\ dict_keys items' = ["custom-m1"; "custom-m2"]
    /\ dict_get "custom-m2" items' = Some (JStr "other").
Proof.
  assert (interactive_model_picker world_again
          = (Returns true, (interactive_model_picker world_again).2)) as Hrun
    by (vm_compute; reflexivity).
  destruct (readd_model_id_overwrites world_again _ _ _ _ _ _ _ (JStr "old")
              eq_refl Hrun eq_refl eq_refl)
    as (items' & Hf & Hk & _ & Hother).
  exists items'. split; [exact Hf|]. split; [exact Hk|].
  rewrite Hother; [reflexivity|discriminate].
Defined.

(** Two runs in a row that return [True] for different model ids leave
    both entries in the file. *)
Theorem two_runs_accumulate w w1 w2 u1 m1 e1 c1 r1 u2 m2 e2 c2 r2 :
  stdin w = Line u1 :: Line m1 :: Line e1 :: Line c1 :: r1 ->
  interactive_model_picker w = (Returns true, w1) ->
  stdin w1 = Line u2 :: Line m2 :: Line e2 :: Line c2 :: r2 ->
  interactive_model_picker w1 = (Returns true, w2) ->
  m1 <> m2 ->
  saved_entry w2 ("custom-" +:+ m1) (entry_for u1 m1 e1 c1)
  /\ saved_entry w2 ("custom-" +:+ m2) (entry_for u2 m2 e2 c2).
Proof.
  intros Hin1 H1 Hin2 H2 Hne.
  split; [|exact (saved_run_entry _ _ _ _ _ _ _ Hin2 H2)].
  destruct (saved_run_entry _ _ _ _ _ _ _ Hin1 H1) as (items1 & Hf1 & Hg1).
  destruct (saved_run _ _ H2)
    as (ks' & u' & m' & e' & c' & rest' & items0 & pre & _ & Hin' & _ & _ & _
        & Hl & _ & _ & Hf' & _).
  rewrite Hin2 in Hin'. injection Hin' as <- <- <- <- <-.
  rewrite Hf1 in Hl. injection Hl as <-.
  eexists. split; [exact Hf'|].
  rewrite dict_get_setitem_ne; [exact Hg1|].
  intros Hk. apply Hne. by apply key_for_inj.
Qed.

Lemma two_runs_accumulate_witness :
  let w1 := (interactive_model_picker world_two_models).2 in
  let w2 := (interactive_model_picker w1).2 in
  saved_entry w2 "custom-m1"
    (entry_for "https://api.example/v1" "m1" "FOO_KEY" "")
  /\ saved_entry w2 "custom-m2"
    (entry_for "https://api.example/v2" "m2" "BAR_KEY" "4096").
Proof.
  cbv zeta.
  assert (interactive_model_picker world_two_models
          = (Returns true, (interactive_model_picker world_two_models).2))
    as H1 by (vm_compute; reflexivity).
  assert (interactive_model_picker (interactive_model_picker world_two_models).2
          = (Returns true,
             (interactive_model_picker
                (interactive_model_picker world_two_models).2).2))
    as H2 by (vm_compute; reflexivity).
  refine (two_runs_accumulate world_two_models _ _ _ _ _ _ _ _ _ _ _ _
            eq_refl H1 _ H2 _).
  - vm_compute. reflexivity.
  - discriminate.
Defined.

(* --------------------------------------------------------------------- *)
(** *** Keys *)




(* --------------------------------------------------------------------- *)
(** *** The panels and the menu object *)

(** The provider panel is drawn from the first provider alone: the other
    providers, the selection index, the view mode and the stored result
    have no part in it; with no provider it raises [IndexError]. *)
Theorem provider_panel_shows_first_provider w1 w2 p ps1 ps2 :
  providers (menu w1) = p :: ps1 ->
  providers (menu w2) = p :: ps2 ->
  (_render_provider_list w1).1 = (_render_provider_list w2).1
  /\ exists hints,
       (_render_provider_list w1).1
       = Returns (("", " Providers" +:+ LF +:+ LF)
                  :: ("fg:ansicyan bold", " > " +:+ provider_name p) :: hints).
Proof.
  intros H1 H2. unfold _render_provider_list. py_prims. cbn.
  rewrite H1, H2. cbn. split; [reflexivity|]. eexists. reflexivity.
Qed.

Lemma provider_panel_shows_first_provider_witness :
  (_render_provider_list world_models_view).1
  = (_render_provider_list world_abc).1.
Proof.
  exact (proj1 (provider_panel_shows_first_provider world_models_view world_abc
                  custom_openai_provider [custom_openai_provider] []
                  eq_refl eq_refl)).
Defined.



(** [run] sets the stored result on the confirm key and at no other time,
    and never clears it. *)
Theorem run_result_field w :
  (forall rest, providers (menu w) <> [] ->
     display_ends_with KeyEnter (keys w) rest ->
     result (menu (run w).2) = Some "add_custom")
  /\ (providers (menu w) = []
      \/ (forall rest, ~ display_ends_with KeyEnter (keys w) rest) ->
      result (menu (run w).2) = result (menu w)).
Proof.
  rewrite run_eq. split.
  - intros rest Hp Hk. destruct (providers (menu w)) as [|p ps]; [done|].
    rewrite (display_ends_with_enter _ _ Hk). cbn zeta.
    match goal with |- context [_prompt_custom_flow ?W] =>
      pose proof (flow_summary W) as H; destruct (_prompt_custom_flow W) as [o w']
    end.
    destruct H as (evs & _ & _ & _ & _ & _ & _ & Hmenu & _).
    cbn [snd]. rewrite Hmenu. reflexivity.
  - intros Hno. destruct (providers (menu w)) as [|p ps]; [reflexivity|].
    destruct Hno as [|Hno]; [done|].
    destruct (display_outcome (keys w)) as [[| |e] ks'] eqn:Hd; cbn zeta.
    + destruct (Hno ks'). by apply display_outcome_confirmed.
    + destruct (result_is (menu w) "add_custom"); [|reflexivity].
      match goal with |- context [_prompt_custom_flow ?W] =>
        pose proof (flow_summary W) as H; destruct (_prompt_custom_flow W) as [o w']
      end.
      destruct H as (evs & _ & _ & _ & _ & _ & _ & Hmenu & _).
      cbn [snd]. rewrite Hmenu. reflexivity.
    + reflexivity.
Qed.

Lemma run_result_field_witness :
  result (menu (run world_abc).2) = Some "add_custom"
  /\ result (menu (run world_reused_menu).2) = Some "add_custom".
Proof.
  destruct (run_result_field world_abc) as (Hset & _).
  destruct (run_result_field world_reused_menu) as (_ & Hkeep).
  split.
  - apply (Hset []); [discriminate|by exists 0%nat].
  - rewrite Hkeep; [reflexivity|]. right. intros rest [n Hk].
    destruct n as [|n]; discriminate Hk.
Defined.

(* --------------------------------------------------------------------- *)
(** *** More on the persistence step *)

(** A save never makes a key occur twice: if the keys of the store it
    starts from are distinct, so are the keys of the store it writes. *)
Theorem save_keeps_keys_distinct w key entry items :
  loaded (extra_models_file w) = JDict items ->
  List.NoDup (dict_keys items) ->
  mkdir_ok w = true -> open_w_ok w = true ->
  exists w' items',
    _save_config key entry w = (Returns tt, w')
    /\ extra_models_file w' = Holds (JDict items')
    /\ List.NoDup (dict_keys items').
Proof.
  intros Hl Hnd Hm Ho. rewrite _save_config_eq, Hl, Hm, Ho. cbn.
  eexists _, _. split; [reflexivity|]. split; [reflexivity|].
  by apply dict_setitem_NoDup.
Qed.

Lemma save_keeps_keys_distinct_witness :
  exists w' items',
    _save_config "a" (JStr "new") world_store_a = (Returns tt, w')
    /\ extra_models_file w' = Holds (JDict items')
    /\ List.NoDup (dict_keys items').
Proof.
  apply (save_keeps_keys_distinct world_store_a "a" (JStr "new") store_a);
    try reflexivity.
  unfold store_a, dict_keys. cbn. constructor; [tauto|constructor].
Defined.

(** Saving twice under one key is saving the second entry once, as far as
    the file goes. *)
Theorem save_twice_last_wins w key entry1 entry2 items :
  loaded (extra_models_file w) = JDict items ->
  mkdir_ok w = true -> open_w_ok w = true ->
  exists w1 w2,
    _save_config key entry1 w = (Returns tt, w1)
    /\ _save_config key entry2 w1 = (Returns tt, w2)
    /\ extra_models_file w2 = Holds (JDict (dict_setitem key entry2 items))
    /\ extra_models_file w2
       = extra_models_file (_save_config key entry2 w).2.
Proof.
  intros Hl Hm Ho. rewrite !_save_config_eq, Hl, Hm, Ho. cbn.
  eexists _, _. split; [reflexivity|].
  rewrite _save_config_eq. cbn. rewrite Hm, Ho. cbn.
  split; [reflexivity|]. by rewrite dict_setitem_setitem.
Qed.

Lemma save_twice_last_wins_witness :
  exists w1 w2,
    _save_config "b" (JStr "first") world_store_a = (Returns tt, w1)
    /\ _save_config "b" (JStr "second") w1 = (Returns tt, w2)
    /\ extra_models_file w2
       = Holds (JDict [("a", JDict [("name", JStr "old")]); ("b", JStr "second")]).
Proof.
  destruct (save_twice_last_wins world_store_a "b" (JStr "first")
              (JStr "second") store_a eq_refl eq_refl eq_refl)
    as (w1 & w2 & H1 & H2 & Hf & _).
  exists w1, w2. split; [exact H1|]. split; [exact H2|]. exact Hf.
Defined.

